(** * ExampleList: the list of example questions of the chat front end

    A shallow embedding of
    [app/frontend/src/components/Example/ExampleList.tsx].

    The component maps the module-level array [EXAMPLES] to one
    [<li key={i}>] per entry, each holding one [<Example>] element that
    receives the entry's [text] and [value] and the caller's
    [onExampleClicked] callback.

    Callbacks have the TypeScript type [(value: string) => void]: they
    return nothing and act on state owned by the caller.  That state is
    the type parameter [W] below, and a callback is a function
    [string → W → W]. *)

From stdpp Require Import base option list strings.

Local Open Scope string_scope.

(** ** [import { Example } from "./Example"] *)

Module Example.

(** The props [ExampleList] passes: [text], [value] and [onClick]. *)
Record Props (W : Type) : Type := {
  text : string;
  value : string;
  onClick : string → W → W
}.
Arguments text {W} _.
Arguments value {W} _.
Arguments onClick {W} _ _ _.

(** What the user gets for one [<Example>]: a text on the screen and a
    handler that runs when the item is activated. *)
Record Item (W : Type) : Type := {
  displayed : string;
  activate : W → W
}.
Arguments displayed {W} _.
Arguments activate {W} _ _.

(** Modelled from the spec: the [Example] component lives in
    [./Example], which is not among the sources.  The specification says
    that each item displays [displayText] (the [text] prop) and, when
    activated, invokes [onSelect(value)] exactly once per activation. *)
Definition Example {W : Type} (props : Props W) : Item W :=
  {| displayed := text props;
     activate := λ w, onClick props (value props) w |}.

End Example.

(** ** [import styles from "./Example.module.css"] *)

(** The CSS module is an object of class names; the component reads one
    of them. *)
Record Styles : Type := {
  examplesNavList : string
}.

(** ** [ExampleModel] and [EXAMPLES] *)

Record ExampleModel : Type := {
  text : string;
  value : string
}.

Definition EXAMPLES : list ExampleModel :=
  [ {| text := "請告訴我展碁國際的公司概況";
       value := "請告訴我展碁國際的公司概況" |};
    {| text := "展碁國際的核心價值?"; value := "展碁國際的核心價值?" |};
    {| text := "展碁國際的負責人是?"; value := "展碁國際的負責人是?" |} ].

(** ** The element tree the component returns *)

(** [<li key={i}> <Example ... /> </li>] *)
Record LiElement (W : Type) : Type := {
  key : nat;
  child : Example.Props W
}.
Arguments key {W} _.
Arguments child {W} _.

(** [<ul className={...}> ... </ul>] *)
Record UlElement (W : Type) : Type := {
  className : string;
  children : list (LiElement W)
}.
Arguments className {W} _.
Arguments children {W} _.

(** ** [Props] and [ExampleList] *)

Record Props (W : Type) : Type := {
  onExampleClicked : string → W → W
}.
Arguments onExampleClicked {W} _ _ _.

Section ExampleList.
Context {W : Type} (styles : Styles).

(** The body of [ExampleList], with the array it maps over as an
    argument.  JavaScript's [xs.map((x, i) => e)] is [imap (λ i x, e) xs]. *)
Definition ExampleList_of (examples : list ExampleModel) (props : Props W)
  : UlElement W :=
  let 'Build_Props _ onExampleClicked := props in
  {| className := examplesNavList styles;
     children :=
       imap (λ i x,
               {| key := i;
                  child := {| Example.text := text x;
                              Example.value := value x;
                              Example.onClick := onExampleClicked |} |})
            examples |}.

(** The component itself reads the module-level constant. *)
Definition ExampleList (props : Props W) : UlElement W :=
  ExampleList_of EXAMPLES props.

(** ** What the user sees and does *)

(** The items on the screen: React renders the [<Example>] of every
    [<li>], in order. *)
Definition items (ul : UlElement W) : list (Example.Item W) :=
  (λ li, Example.Example (child li)) <$> children ul.

(** Activating the [i]-th item runs its handler on the caller's state;
    there is nothing to activate when the list has no [i]-th item. *)
Definition click (i : nat) (ul : UlElement W) (w : W) : option W :=
  (λ it, Example.activate it w) <$> items ul !! i.

End ExampleList.

(** ** The running component *)

Section Runtime.
Context {W : Type} (styles : Styles).

(** What exists while the page is up: the array bound to [EXAMPLES] when
    the module is loaded, the output of the latest render (none before
    the first one) and the caller's state. *)
Record Runtime : Type := {
  examples : list ExampleModel;
  screen : option (UlElement W);
  world : W
}.

(** The two things that happen to the component: React calls it with
    props, and the user activates the [i]-th item on the screen. *)
Inductive Op : Type :=
| Render (props : Props W)
| Activate (i : nat).

(** Loading the module binds [EXAMPLES]; nothing is rendered yet. *)
Definition boot (w : W) : Runtime :=
  {| examples := EXAMPLES; screen := None; world := w |}.

(** A render maps over the array and replaces the screen.  An
    activation runs the handler of the item on the screen, which acts on
    the caller's state only; without such an item nothing happens. *)
Definition step (rt : Runtime) (op : Op) : Runtime :=
  match op with
  | Render props =>
      {| examples := examples rt;
         screen := Some (ExampleList_of styles (examples rt) props);
         world := world rt |}
  | Activate i =>
      match screen rt ≫= (λ ul, click i ul (world rt)) with
      | Some w' =>
          {| examples := examples rt; screen := screen rt; world := w' |}
      | None => rt
      end
  end.

Definition run (rt : Runtime) (ops : list Op) : Runtime :=
  foldl step rt ops.

End Runtime.

Arguments Runtime W : clear implicits.
Arguments Op W : clear implicits.

(** ** Counting calls *)

(** A callback that does what [cb] does and also appends the argument
    of every call to a log kept next to the caller's state. *)
Definition recording {W : Type} (cb : string → W → W)
  : string → W * list string → W * list string :=
  λ v s, (cb v s.1, (s.2 ++ [v])%list).

(** Reading an entry back from a rendered [<li>]. *)
Definition entry_of {W : Type} (li : LiElement W) : ExampleModel :=
  {| text := Example.text (child li); value := Example.value (child li) |}.

(** The same [<li>] moved [n] places down the list. *)
Definition rekey {W : Type} (n : nat) (li : LiElement W) : LiElement W :=
  {| key := n + key li; child := child li |}.

(** The same [<li>] with another handler in its [<Example>]. *)
Definition with_onClick {W V : Type} (cb : string → V → V)
    (li : LiElement W) : LiElement V :=
  {| key := key li;
     child := {| Example.text := Example.text (child li);
                 Example.value := Example.value (child li);
                 Example.onClick := cb |} |}.

(** * Properties *)

(** ** Equations of the render *)

Section Render_facts.
Context {W : Type} (styles : Styles).
Implicit Types (entries : list ExampleModel) (props : Props W).

Lemma children_lookup entries props i :
  children (ExampleList_of styles entries props) !! i =
  (λ x, {| key := i;
           child := {| Example.text := text x;
                       Example.value := value x;
                       Example.onClick := onExampleClicked props |} |})
    <$> entries !! i.
Proof. destruct props as [cb]. cbn. apply list_lookup_imap. Qed.

Lemma children_length entries props :
  length (children (ExampleList_of styles entries props)) = length entries.
Proof. destruct props as [cb]. cbn. apply length_imap. Qed.

Lemma items_lookup entries props i :
  items (ExampleList_of styles entries props) !! i =
  (λ x, {| Example.displayed := text x;
           Example.activate := λ w, onExampleClicked props (value x) w |})
    <$> entries !! i.
Proof.
  unfold items. rewrite list_lookup_fmap, children_lookup.
  by destruct (entries !! i).
Qed.

Lemma click_lookup entries props i w :
  click i (ExampleList_of styles entries props) w =
  (λ x, onExampleClicked props (value x) w) <$> entries !! i.
Proof. unfold click. rewrite items_lookup. by destruct (entries !! i). Qed.

End Render_facts.

(** ** Invariants of the running component *)

Section Runtime_facts.
Context {W : Type} (styles : Styles).
Implicit Types (rt : Runtime W) (op : Op W) (ops : list (Op W)).

Lemma step_examples rt op : examples (step styles rt op) = examples rt.
Proof.
  destruct op as [props|i]; cbn; [done|].
  by destruct (screen rt ≫= _).
Qed.

Lemma run_examples rt ops : examples (run styles rt ops) = examples rt.
Proof.
  revert rt. induction ops as [|op ops IH]; intros rt; [done|].
  cbn. fold (run styles (step styles rt op) ops).
  rewrite IH. apply step_examples.
Qed.

Lemma render_screen rt props :
  screen (step styles rt (Render props))
  = Some (ExampleList_of styles (examples rt) props).
Proof. reflexivity. Qed.

Lemma activate_screen rt i :
  screen (step styles rt (Activate i)) = screen rt.
Proof. cbn. by destruct (screen rt ≫= _). Qed.

End Runtime_facts.

(** ** The render: count, order, texts, keys and handlers *)

(** C2. For a collection of N entries the render has exactly N list
    elements and N items, and the i-th of them comes from the i-th
    entry: reading the entries back from the rendered elements gives
    the collection itself, in the same order. *)
Theorem render_count_and_order {W : Type} (styles : Styles)
    (entries : list ExampleModel) (props : Props W) :
  length (children (ExampleList_of styles entries props)) = length entries
  ∧ length (items (ExampleList_of styles entries props)) = length entries
  ∧ entry_of <$> children (ExampleList_of styles entries props) = entries
  ∧ ∀ i, entry_of <$> children (ExampleList_of styles entries props) !! i
         = entries !! i.
Proof.
  assert (Hi : ∀ i,
    entry_of <$> children (ExampleList_of styles entries props) !! i
    = entries !! i).
  { intros i. rewrite children_lookup.
    by destruct (entries !! i) as [[t v]|]. }
  split_and!.
  - apply children_length.
  - unfold items. rewrite length_fmap. apply children_length.
  - apply list_eq. intros i. rewrite list_lookup_fmap. apply Hi.
  - exact Hi.
Qed.

(** C3. For every index i into the collection, the [text] prop handed
    to the i-th [<Example>] and the text its item displays both equal
    the [text] field of the i-th entry. *)
Theorem displayed_text_is_entry_text {W : Type} (styles : Styles)
    (entries : list ExampleModel) (props : Props W)
    (i : nat) (x : ExampleModel) :
  entries !! i = Some x →
  (λ li, Example.text (child li))
    <$> children (ExampleList_of styles entries props) !! i = Some (text x)
  ∧ Example.displayed <$> items (ExampleList_of styles entries props) !! i
    = Some (text x).
Proof.
  intros Hx. rewrite children_lookup, items_lookup, Hx. by split.
Qed.

Lemma displayed_text_is_entry_text_witness :
  EXAMPLES !! 2 = Some {| text := "展碁國際的負責人是?";
                          value := "展碁國際的負責人是?" |}
  ∧ Example.displayed
      <$> items (ExampleList_of (Build_Styles "nav") EXAMPLES
                   {| onExampleClicked := λ v (w : nat), S w |}) !! 2
    = Some "展碁國際的負責人是?".
Proof.
  split; [reflexivity|].
  apply (displayed_text_is_entry_text (Build_Styles "nav") EXAMPLES
           {| onExampleClicked := λ v (w : nat), S w |} 2
           {| text := "展碁國際的負責人是?";
              value := "展碁國際的負責人是?" |}).
  reflexivity.
Defined.

(** C9. Every [<li>] is keyed by its position: the keys of the rendered
    elements are 0, 1, ..., N-1 in this order, hence pairwise
    distinct. *)
Theorem keys_are_positions {W : Type} (styles : Styles)
    (entries : list ExampleModel) (props : Props W) :
  key <$> children (ExampleList_of styles entries props)
  = seq 0 (length entries)
  ∧ NoDup (key <$> children (ExampleList_of styles entries props)).
Proof.
  assert (Hk : key <$> children (ExampleList_of styles entries props)
               = seq 0 (length entries)).
  { apply list_eq. intros i.
    rewrite list_lookup_fmap, children_lookup.
    destruct (entries !! i) as [x|] eqn:Hx; cbn.
    - symmetry. apply lookup_seq. split; [done|].
      by eapply lookup_lt_Some.
    - symmetry. apply lookup_seq_ge. by apply lookup_ge_None. }
  split; [exact Hk|]. rewrite Hk. apply NoDup_seq.
Qed.

(** C10. The [onClick] prop of every rendered [<Example>] is the very
    function received as [onExampleClicked]: the same for all items,
    not wrapped and not replaced. *)
Theorem onClick_is_the_callback {W : Type} (styles : Styles)
    (entries : list ExampleModel) (props : Props W)
    (i : nat) (li : LiElement W) :
  children (ExampleList_of styles entries props) !! i = Some li →
  Example.onClick (child li) = onExampleClicked props.
Proof.
  rewrite children_lookup. intros Hli.
  apply fmap_Some in Hli as (x & _ & ->). reflexivity.
Qed.

Lemma onClick_is_the_callback_witness :
  children (ExampleList_of (Build_Styles "nav") EXAMPLES
              {| onExampleClicked := λ v (w : list string), v :: w |}) !! 0
  = Some {| key := 0;
            child := {| Example.text := "請告訴我展碁國際的公司概況";
                        Example.value := "請告訴我展碁國際的公司概況";
                        Example.onClick := λ v (w : list string), v :: w |} |}
  ∧ Example.onClick
      (child {| key := 0;
                child := {| Example.text := "請告訴我展碁國際的公司概況";
                            Example.value := "請告訴我展碁國際的公司概況";
                            Example.onClick :=
                              λ v (w : list string), v :: w |} |})
    = λ v (w : list string), v :: w.
Proof.
  split; [reflexivity|].
  apply (onClick_is_the_callback (Build_Styles "nav") EXAMPLES
           {| onExampleClicked := λ v (w : list string), v :: w |} 0).
  reflexivity.
Defined.

(** C7. In this source the two fields of every entry of [EXAMPLES] are
    the same string. *)
Theorem EXAMPLES_text_is_value :
  Forall (λ x, text x = value x) EXAMPLES.
Proof. unfold EXAMPLES. repeat constructor. Qed.

(** ** Activation *)

(** C1. For every index i into the collection and every callback,
    activating the i-th item does to the caller's state what one call
    of the callback with the i-th entry's [value] does; with calls
    logged, the log of one activation is that one call, so no call is
    made with a different entry's value. *)
Theorem activation_invokes_callback_once {W : Type} (styles : Styles)
    (entries : list ExampleModel) (cb : string → W → W)
    (i : nat) (x : ExampleModel) (w : W) :
  entries !! i = Some x →
  click i (ExampleList_of styles entries {| onExampleClicked := cb |}) w
  = Some (cb (value x) w)
  ∧ click i (ExampleList_of styles entries
               {| onExampleClicked := recording cb |}) (w, [])
    = Some (cb (value x) w, [value x])
  ∧ ∀ r y,
      click i (ExampleList_of styles entries
                 {| onExampleClicked := recording cb |}) (w, []) = Some r →
      y ∈ entries → value y ≠ value x → value y ∉ r.2.
Proof.
  intros Hx. rewrite !click_lookup, Hx. cbn. split_and!; [done..|].
  intros r y [= <-] _ Hne. cbn. by rewrite list_elem_of_singleton.
Qed.

Lemma activation_invokes_callback_once_witness :
  EXAMPLES !! 0 = Some {| text := "請告訴我展碁國際的公司概況";
                          value := "請告訴我展碁國際的公司概況" |}
  ∧ click 0 (ExampleList_of (Build_Styles "nav") EXAMPLES
               {| onExampleClicked := recording (λ v (n : nat), S n) |})
          (7, [])
    = Some (8, ["請告訴我展碁國際的公司概況"]).
Proof.
  split; [reflexivity|].
  apply (activation_invokes_callback_once (Build_Styles "nav") EXAMPLES
           (λ v (n : nat), S n) 0
           {| text := "請告訴我展碁國際的公司概況";
              value := "請告訴我展碁國際的公司概況" |} 7).
  reflexivity.
Defined.

(** C4. The component's collection is the one of the scenario; its
    render has exactly 3 items showing the three questions in this
    order, and activating the second item is one call of the callback,
    with the second question. *)
Theorem scenario_three_examples {W : Type} (styles : Styles)
    (cb : string → W → W) (w : W) :
  EXAMPLES
  = [ {| text := "請告訴我展碁國際的公司概況";
         value := "請告訴我展碁國際的公司概況" |};
      {| text := "展碁國際的核心價值?"; value := "展碁國際的核心價值?" |};
      {| text := "展碁國際的負責人是?"; value := "展碁國際的負責人是?" |} ]
  ∧ length (items (ExampleList styles {| onExampleClicked := cb |})) = 3
  ∧ Example.displayed
      <$> items (ExampleList styles {| onExampleClicked := cb |})
    = [ "請告訴我展碁國際的公司概況";
        "展碁國際的核心價值?";
        "展碁國際的負責人是?" ]
  ∧ entry_of <$> children (ExampleList styles {| onExampleClicked := cb |})
    = EXAMPLES
  ∧ click 1 (ExampleList styles {| onExampleClicked := cb |}) w
    = Some (cb "展碁國際的核心價值?" w)
  ∧ click 1 (ExampleList styles {| onExampleClicked := recording cb |})
          (w, [])
    = Some (cb "展碁國際的核心價值?" w, ["展碁國際的核心價值?"]).
Proof. by split_and!. Qed.

(** ** The running component: constancy, determinism, frame *)

(** C6. [EXAMPLES] has exactly three entries, so it is not empty, and
    after any sequence of renders and activations the array the
    component reads is still [EXAMPLES]. *)
Theorem EXAMPLES_never_modified {W : Type} (styles : Styles)
    (w : W) (ops : list (Op W)) :
  length EXAMPLES = 3
  ∧ EXAMPLES ≠ []
  ∧ examples (boot w) = EXAMPLES
  ∧ examples (run styles (boot w) ops) = EXAMPLES.
Proof.
  split_and!; [done..|]. by rewrite run_examples.
Qed.

(** C5. Two renders with the same props give the same output, whatever
    happened before each of them (other renders, activations, another
    caller state): the output is [ExampleList] of the props. *)
Theorem render_deterministic {W : Type} (styles : Styles)
    (props : Props W) (w1 w2 : W) (ops1 ops2 : list (Op W)) :
  screen (step styles (run styles (boot w1) ops1) (Render props))
  = screen (step styles (run styles (boot w2) ops2) (Render props))
  ∧ screen (step styles (run styles (boot w1) ops1) (Render props))
    = Some (ExampleList styles props).
Proof.
  cbn. rewrite !run_examples. by split.
Qed.

(** C8. Activating item i changes no other item j: the element and the
    item at position j of the screen are what they were before, and a
    new render with the same props gives the same j-th item as it would
    have given before the activation.  (An activation acts on the
    caller's state alone, so item i itself is unchanged as well.) *)
Theorem activation_leaves_other_items {W : Type} (styles : Styles)
    (rt : Runtime W) (props : Props W) (i j : nat) :
  j ≠ i →
  (screen (step styles rt (Activate i)) ≫= λ ul, children ul !! j)
  = (screen rt ≫= λ ul, children ul !! j)
  ∧ (screen (step styles rt (Activate i)) ≫= λ ul, items ul !! j)
    = (screen rt ≫= λ ul, items ul !! j)
  ∧ (screen (step styles (step styles rt (Activate i)) (Render props))
       ≫= λ ul, items ul !! j)
    = (screen (step styles rt (Render props)) ≫= λ ul, items ul !! j).
Proof.
  intros _. rewrite activate_screen. split_and!; [done..|].
  by rewrite !render_screen, step_examples.
Qed.

Lemma activation_leaves_other_items_witness :
  2 ≠ 1
  ∧ (screen (step (Build_Styles "nav")
               (run (Build_Styles "nav") (boot [])
                  [Render {| onExampleClicked := λ v w, v :: w |}])
               (Activate 1))
       ≫= λ ul, items ul !! 2)
    = (screen (run (Build_Styles "nav") (boot [])
                 [Render {| onExampleClicked := λ v w, v :: w |}])
         ≫= λ ul, items ul !! 2).
Proof.
  split; [lia|].
  apply (activation_leaves_other_items (Build_Styles "nav")
           (run (Build_Styles "nav") (boot [])
              [Render {| onExampleClicked := λ v w, v :: w |}])
           {| onExampleClicked := λ v w, v :: w |} 1 2).
  lia.
Defined.

(** * Further properties of the render *)

Section Activations.
Context {W : Type} (styles : Styles).
Implicit Types (rt : Runtime W) (props : Props W) (js : list nat).

(** Activations on a screen that shows the render of the array: the
    caller's state goes through the callback once per activated entry,
    in the order of the activations. *)
Lemma run_activations rt props js :
  screen rt = Some (ExampleList_of styles (examples rt) props) →
  world (run styles rt (Activate <$> js))
  = foldl (λ w v, onExampleClicked props v w) (world rt)
      (omap (λ j, value <$> examples rt !! j) js).
Proof.
  revert rt. induction js as [|j js IH]; intros rt Hscr; [done|].
  cbn [fmap list_fmap run foldl].
  fold (run styles (step styles rt (Activate j)) (Activate <$> js)).
  rewrite IH; rewrite ?activate_screen, ?step_examples; [|done].
  cbn [step omap list_omap]. rewrite Hscr. cbn [mbind option_bind].
  rewrite click_lookup. by destruct (examples rt !! j).
Qed.

End Activations.

Lemma foldl_recording {W : Type} (cb : string → W → W)
    (vs : list string) (s : W * list string) :
  foldl (λ s v, recording cb v s) s vs
  = (foldl (λ w v, cb v w) s.1 vs, (s.2 ++ vs)%list).
Proof.
  revert s. induction vs as [|v vs IH]; intros [w l]; cbn.
  - by rewrite app_nil_r.
  - rewrite IH. cbn. by rewrite <- app_assoc.
Qed.

(** X1. Rendering a collection followed by another gives the elements
    of the first, unchanged, followed by the elements of the second
    moved down by the length of the first: entries added at the end
    leave the keys and props of the elements before them as they
    were. *)
Theorem render_app {W : Type} (styles : Styles)
    (es1 es2 : list ExampleModel) (props : Props W) :
  children (ExampleList_of styles (es1 ++ es2)%list props)
  = (children (ExampleList_of styles es1 props)
     ++ (rekey (length es1) <$> children (ExampleList_of styles es2 props)))%list.
Proof.
  destruct props as [cb]. cbn. rewrite imap_app. f_equal.
  rewrite fmap_imap. by apply imap_ext.
Qed.

(** X2. The [<ul>] always carries the class [styles.examplesNavList],
    and it has no children exactly when the collection is empty: an
    empty collection gives an empty list, not a missing one, and no
    entry is dropped from a collection that has some. *)
Theorem render_empty_iff {W : Type} (styles : Styles)
    (entries : list ExampleModel) (props : Props W) :
  className (ExampleList_of styles entries props) = examplesNavList styles
  ∧ (children (ExampleList_of styles entries props) = [] ↔ entries = []).
Proof.
  split; [by destruct props|].
  rewrite <- !length_zero_iff_nil, children_length. done.
Qed.

(** X3. The callback reaches the output through the [onClick] props
    and nowhere else: the render with a callback [cb'], over any caller
    state, is the render with any other props in which every handler is
    replaced by [cb']; class name, keys, texts and values are the
    same. *)
Theorem render_callback_only_in_onClick {W V : Type} (styles : Styles)
    (entries : list ExampleModel) (props : Props W)
    (cb' : string → V → V) :
  className (ExampleList_of styles entries {| onExampleClicked := cb' |})
  = className (ExampleList_of styles entries props)
  ∧ children (ExampleList_of styles entries {| onExampleClicked := cb' |})
    = with_onClick cb' <$> children (ExampleList_of styles entries props).
Proof.
  split; [by destruct props|].
  apply list_eq. intros i.
  rewrite list_lookup_fmap, !children_lookup.
  by destruct (entries !! i).
Qed.

(** X4. After a render, a series of activations at positions [js] takes
    the caller's state through the callback once per position that
    holds an entry, with that entry's [value], in the order of the
    activations; positions past the end contribute nothing.  With calls
    logged, the log grows by exactly these values, in this order and
    with repetitions.  (Activation goes through the [Example]
    component as modelled above.) *)
Theorem activations_in_order {W : Type} (styles : Styles)
    (cb : string → W → W) (js : list nat) :
  (∀ rt : Runtime W,
     world (run styles rt
              (Render {| onExampleClicked := cb |} :: (Activate <$> js)))
     = foldl (λ w v, cb v w) (world rt)
         (omap (λ j, value <$> examples rt !! j) js))
  ∧ (∀ rt : Runtime (W * list string),
       (world (run styles rt
                 (Render {| onExampleClicked := recording cb |}
                    :: (Activate <$> js)))).2
       = ((world rt).2 ++ omap (λ j, value <$> examples rt !! j) js)%list).
Proof.
  split; intros rt.
  - exact (run_activations styles
             (step styles rt (Render {| onExampleClicked := cb |}))
             {| onExampleClicked := cb |} js eq_refl).
  - pose proof (run_activations styles
             (step styles rt (Render {| onExampleClicked := recording cb |}))
             {| onExampleClicked := recording cb |} js eq_refl) as H.
    change (run styles rt (?op :: ?ops))
      with (run styles (step styles rt op) ops).
    rewrite H. cbn [onExampleClicked step world examples].
    by rewrite foldl_recording.
Qed.
